(** * sciurus17_examples_py / gripper_control.py

    A shallow embedding of the gripper demo of the Sciurus17 examples:
    the helper [plan_and_execute] and the script [main] that drives the
    arm and the two grippers through MoveItPy.

    The Python code is a straight line of calls into external
    collaborators (the logger, the planning components, the executor,
    [time.sleep]).  Each such call is recorded, in program order, in a
    trace of [Event]s; the planning components are mutable objects and
    live in a store.  The planner's answer is not determined by the
    program: it is an oracle that sees the whole history and the request.

    The collaborators are taken at their interface: a call returns, [plan]
    with a result object that is truthy or not.  The program itself has
    no [raise] and no [try]; what the libraries may raise is outside this
    model. *)

From Stdlib Require Import PrimFloat.
From stdpp Require Import base option list strings gmap.

Open Scope string_scope.
Open Scope list_scope.

(** ** Data

    Python floats are IEEE-754 binary64 numbers: [PrimFloat.float]. *)

Module math.

(** [math.pi], the double nearest to pi. *)
Definition pi : float := 0x1.921fb54442d18p+1%float.

(** CPython computes [math.radians(x)] as [x * (pi / 180.0)]. *)
Definition degToRad : float := (pi / 180)%float.

Definition radians (x : float) : float := (x * degToRad)%float.

End math.

(** The trajectory found by the planner; the program never looks inside. *)
Inductive RobotTrajectory : Type :=
  | TrajectoryHandle (id : nat).

(** What [planning_component.plan] returns.  The object is truthy exactly
    when planning succeeded ([if plan_result:]) and carries the
    [trajectory] attribute. *)
Record MotionPlanResponse : Type := mkMotionPlanResponse {
  success : bool;
  trajectory : RobotTrajectory
}.

(** An attribute of [PlanRequestParameters] is loaded from the node's
    parameters by the constructor until the script assigns it. *)
Inductive Setting : Type :=
  | Loaded
  | Assigned (v : float).

Record PlanRequestParameters : Type := mkPlanRequestParameters {
  params_namespace : string;
  max_acceleration_scaling_factor : Setting;
  max_velocity_scaling_factor : Setting
}.

Record MultiPipelinePlanRequestParameters : Type := mkMultiParameters {
  multi_plan_request_parameters : list PlanRequestParameters
}.

(** The keyword argument [plan] is called with. *)
Inductive PlanArgs : Type :=
  | NoParameters
  | SinglePlanParameters (p : PlanRequestParameters)
  | MultiPlanParameters (p : MultiPipelinePlanRequestParameters).

Inductive RobotModel : Type :=
  | RobotModelOf (node_name : string).

(** A [RobotState] object: the joint group positions set on it so far,
    oldest first, as (group, values) pairs. *)
Record RobotState : Type := mkRobotState {
  rs_model : RobotModel;
  rs_positions : list (string * list float)
}.

(** The start state of a planning component: the robot's current state,
    read when the trace had [at_event] events. *)
Inductive StartState : Type :=
  | CurrentStateAt (at_event : nat).

Inductive GoalState : Type :=
  | GoalConfiguration (configuration_name : string)
  | GoalRobotState (robot_state : RobotState).

(** A planning component object: what has been set on it.  The object is
    known by the name of its group, the key it is stored under. *)
Record PlanningComponent : Type := mkPlanningComponent {
  pc_start : option StartState;
  pc_goal : option GoalState
}.

Record MoveItPy : Type := mkMoveItPy { node_name : string }.
Record Logger : Type := mkLogger { logger_name : string }.

Inductive Severity : Type := Info | Error.

(** The calls that reach outside the program. *)
Inductive Event : Type :=
  | RclpyInit
  | MoveItPyCreated (node : string)
  | Log (logger : Logger) (level : Severity) (msg : string)
  | CurrentStateRead (group : string)
  | Plan (group : string) (request : PlanningComponent) (args : PlanArgs)
         (result : MotionPlanResponse)
  | Execute (robot : MoveItPy) (t : RobotTrajectory) (controllers : list string)
  | Sleep (seconds : float)
  | RclpyShutdown.

(** ** State and the monad of the script *)

Record World : Type := mkWorld {
  events : list Event;
  components : gmap string PlanningComponent
}.

Definition M (A : Type) : Type := World → A * World.

#[global] Instance M_ret : MRet M := λ A (a : A) w, (a, w).
#[global] Instance M_bind : MBind M :=
  λ A B (k : A → M B) (m : M A) w, let '(a, w') := m w in k a w'.

Definition emit (e : Event) : M unit :=
  λ w, (tt, mkWorld (events w ++ [e]) (components w)).

Definition clock : M nat := λ w, (length (events w), w).

Definition new_component : PlanningComponent :=
  mkPlanningComponent None None.

(** Planning components are referred to by the name of their group. *)
Definition component (w : World) (ref : string) : PlanningComponent :=
  default new_component (components w !! ref).

Definition update_component (ref : string)
    (f : PlanningComponent → PlanningComponent) : M unit :=
  λ w, (tt, mkWorld (events w) (<[ref := f (component w ref)]> (components w))).

(** [for _ in range(n): body] *)
Fixpoint for_range (n : nat) (body : M unit) : M unit :=
  match n with
  | O => mret tt
  | S n' => body;; for_range n' body
  end.

(** ** The collaborators

    rclpy, its logger and MoveItPy are libraries: none of their code is
    among the sources.  Their calls are modelled from the spec, at the
    interface it gives them (sections 4.1 and 6): the calls that set up a
    request are data assembly on the object they are made on, and do not
    fail; what the libraries themselves check or reject (an unknown
    group, a wrong number of joint values) is not represented. *)

Definition logger_info (logger : Logger) (msg : string) : M unit :=
  emit (Log logger Info msg).

Definition logger_error (logger : Logger) (msg : string) : M unit :=
  emit (Log logger Error msg).

Definition time_sleep (seconds : float) : M unit :=
  emit (Sleep seconds).

Definition execute (robot : MoveItPy) (t : RobotTrajectory)
    (controllers : list string) : M unit :=
  emit (Execute robot t controllers).

(** Modelled from the spec: MoveItPy's [get_planning_component]; a new
    planning component with nothing set, known by its group. *)
Definition get_planning_component (robot : MoveItPy) (group : string)
    : M string :=
  λ w, (group, mkWorld (events w) (<[group := new_component]> (components w))).

Definition get_robot_model (robot : MoveItPy) : RobotModel :=
  RobotModelOf (node_name robot).

Definition new_PlanRequestParameters (robot : MoveItPy) (ns : string)
    : PlanRequestParameters :=
  mkPlanRequestParameters ns Loaded Loaded.

Definition set_max_acceleration_scaling_factor (p : PlanRequestParameters)
    (v : float) : PlanRequestParameters :=
  mkPlanRequestParameters (params_namespace p) (Assigned v)
    (max_velocity_scaling_factor p).

Definition set_max_velocity_scaling_factor (p : PlanRequestParameters)
    (v : float) : PlanRequestParameters :=
  mkPlanRequestParameters (params_namespace p)
    (max_acceleration_scaling_factor p) (Assigned v).

(** Modelled from the spec: MoveItPy's [RobotState] constructor; no
    positions set yet. *)
Definition new_RobotState (robot_model : RobotModel) : RobotState :=
  mkRobotState robot_model [].

(** Modelled from the spec: MoveItPy's [set_joint_group_positions], which
    is not among the sources.  The group name and the values are recorded
    as they are passed; whether the library accepts them (the group
    exists, the number of values fits it) is not represented, so nothing
    about that can be concluded from this definition. *)
Definition set_joint_group_positions (rs : RobotState) (group : string)
    (values : list float) : RobotState :=
  mkRobotState (rs_model rs) (rs_positions rs ++ [(group, values)]).

(** Modelled from the spec: MoveItPy's
    [set_start_state_to_current_state]; the component reads the robot's
    current state and keeps it as its start state. *)
Definition set_start_state_to_current_state (ref : string) : M unit :=
  now ← clock;
  emit (CurrentStateRead ref);;
  update_component ref
    (λ pc, mkPlanningComponent (Some (CurrentStateAt now)) (pc_goal pc)).

(** Modelled from the spec: MoveItPy's [set_goal_state], with a
    configuration name or a robot state; the component keeps the goal. *)
Definition set_goal_state (ref : string) (goal : GoalState) : M unit :=
  update_component ref (λ pc, mkPlanningComponent (pc_start pc) (Some goal)).

Section Script.

(** The planning service: given the history and the request it answers
    with a plan result.  Nothing is assumed about it. *)
Variable planner :
  list Event → string → PlanningComponent → PlanArgs → MotionPlanResponse.

Definition plan (ref : string) (args : PlanArgs) : M MotionPlanResponse :=
  λ w, let request := component w ref in
       let result := planner (events w) ref request args in
       (result,
        mkWorld (events w ++ [Plan ref request args result]) (components w)).

(** ** plan_and_execute

    The keyword parameters default to [None], [None] and [0.0]; a caller
    that leaves them out passes these. *)

Definition default_sleep_time : float := 0%float.

Definition plan_and_execute (robot : MoveItPy) (planning_component : string)
    (logger : Logger)
    (single_plan_parameters : option PlanRequestParameters)
    (multi_plan_parameters : option MultiPipelinePlanRequestParameters)
    (sleep_time : float) : M unit :=
  logger_info logger "Planning trajectory";;
  plan_result ←
    match multi_plan_parameters with
    | Some mp => plan planning_component (MultiPlanParameters mp)
    | None =>
      match single_plan_parameters with
      | Some sp => plan planning_component (SinglePlanParameters sp)
      | None => plan planning_component NoParameters
      end
    end;
  (if success plan_result
   then logger_info logger "Executing plan";;
        let robot_trajectory := trajectory plan_result in
        execute robot robot_trajectory []
   else logger_error logger "Planning failed");;
  time_sleep sleep_time.

(** ** main *)

(** 0.1, the double Python reads the literal as. *)
Definition scaling_factor : float := 0x1.999999999999ap-4%float.

Definition main : M unit :=
  emit RclpyInit;;
  let logger := mkLogger "moveit_py.gripper_control" in
  let sciurus17 := mkMoveItPy "gripper_control" in
  emit (MoveItPyCreated "gripper_control");;
  logger_info logger "MoveItPy instance created";;
  arm ← get_planning_component sciurus17 "two_arm_group";
  l_gripper ← get_planning_component sciurus17 "l_gripper_group";
  r_gripper ← get_planning_component sciurus17 "r_gripper_group";
  let robot_model := get_robot_model sciurus17 in
  let plan_request_params :=
    new_PlanRequestParameters sciurus17 "ompl_rrtc_default" in
  let gripper_plan_request_params :=
    new_PlanRequestParameters sciurus17 "ompl_rrtc_default" in
  let plan_request_params :=
    set_max_acceleration_scaling_factor plan_request_params scaling_factor in
  let plan_request_params :=
    set_max_velocity_scaling_factor plan_request_params scaling_factor in
  let gripper_plan_request_params :=
    set_max_acceleration_scaling_factor gripper_plan_request_params
      scaling_factor in
  let gripper_plan_request_params :=
    set_max_velocity_scaling_factor gripper_plan_request_params
      scaling_factor in
  let R_GRIPPER_CLOSE := math.radians 0%float in
  let R_GRIPPER_OPEN := math.radians 40%float in
  let L_GRIPPER_CLOSE := math.radians 0%float in
  let L_GRIPPER_OPEN := math.radians (-40)%float in
  set_start_state_to_current_state arm;;
  set_goal_state arm (GoalConfiguration "two_arm_init_pose");;
  plan_and_execute sciurus17 arm logger
    (Some plan_request_params) None default_sleep_time;;
  for_range 2 (
    set_start_state_to_current_state l_gripper;;
    (let robot_state := new_RobotState robot_model in
     let robot_state :=
       set_joint_group_positions robot_state "l_gripper_group"
         [L_GRIPPER_OPEN] in
     set_goal_state l_gripper (GoalRobotState robot_state));;
    plan_and_execute sciurus17 l_gripper logger
      (Some gripper_plan_request_params) None default_sleep_time;;
    set_start_state_to_current_state l_gripper;;
    (let robot_state := new_RobotState robot_model in
     let robot_state :=
       set_joint_group_positions robot_state "l_gripper_group"
         [L_GRIPPER_CLOSE] in
     set_goal_state l_gripper (GoalRobotState robot_state));;
    plan_and_execute sciurus17 l_gripper logger
      (Some gripper_plan_request_params) None default_sleep_time);;
  for_range 2 (
    set_start_state_to_current_state r_gripper;;
    (let robot_state := new_RobotState robot_model in
     let robot_state :=
       set_joint_group_positions robot_state "r_gripper_group"
         [R_GRIPPER_OPEN] in
     set_goal_state r_gripper (GoalRobotState robot_state));;
    plan_and_execute sciurus17 r_gripper logger
      (Some gripper_plan_request_params) None default_sleep_time;;
    set_start_state_to_current_state r_gripper;;
    (let robot_state := new_RobotState robot_model in
     let robot_state :=
       set_joint_group_positions robot_state "r_gripper_group"
         [R_GRIPPER_CLOSE] in
     set_goal_state r_gripper (GoalRobotState robot_state));;
    plan_and_execute sciurus17 r_gripper logger
      (Some gripper_plan_request_params) None default_sleep_time);;
  emit RclpyShutdown.

End Script.

(** ** The motion steps of main

    [main] repeats one pattern per motion: take the current state as the
    start, set the goal (a named configuration, or a fresh [RobotState]
    with the positions of one joint group), then [plan_and_execute] with
    single-plan parameters.  A [MotionStep] holds what varies. *)

Inductive GoalSpec : Type :=
  | NamedConfiguration (name : string)
  | JointValues (group : string) (values : list float).

Record MotionStep : Type := mkMotionStep {
  target_group : string;
  goal_spec : GoalSpec;
  tuning : PlanRequestParameters;
  delay : float
}.

Definition goal_state (robot_model : RobotModel) (g : GoalSpec) : GoalState :=
  match g with
  | NamedConfiguration name => GoalConfiguration name
  | JointValues group values =>
    let robot_state := new_RobotState robot_model in
    let robot_state := set_joint_group_positions robot_state group values in
    GoalRobotState robot_state
  end.

(** The statements before [plan_and_execute]: they assemble the request
    on the planning component.  All of them are calls into MoveItPy, as
    modelled above: that this returns and touches one component only is
    what that model says of the library, not a property of the script. *)
Definition build_request (robot_model : RobotModel) (ref : string)
    (g : GoalSpec) : M unit :=
  set_start_state_to_current_state ref;;
  set_goal_state ref (goal_state robot_model g).

Section Sequence.

Variable planner :
  list Event → string → PlanningComponent → PlanArgs → MotionPlanResponse.
Variable robot : MoveItPy.
Variable logger : Logger.

Definition run_step (s : MotionStep) : M unit :=
  build_request (get_robot_model robot) (target_group s) (goal_spec s);;
  plan_and_execute planner robot (target_group s) logger
    (Some (tuning s)) None (delay s).

Fixpoint run_sequence (steps : list MotionStep) : M unit :=
  match steps with
  | [] => mret tt
  | s :: rest => run_step s;; run_sequence rest
  end.

End Sequence.

Definition sciurus17 : MoveItPy := mkMoveItPy "gripper_control".
Definition main_logger : Logger := mkLogger "moveit_py.gripper_control".

Definition arm_parameters : PlanRequestParameters :=
  mkPlanRequestParameters "ompl_rrtc_default"
    (Assigned scaling_factor) (Assigned scaling_factor).
Definition gripper_parameters : PlanRequestParameters :=
  mkPlanRequestParameters "ompl_rrtc_default"
    (Assigned scaling_factor) (Assigned scaling_factor).

Definition gripper_step (group : string) (degrees : float) : MotionStep :=
  mkMotionStep group (JointValues group [math.radians degrees])
    gripper_parameters default_sleep_time.

(** The nine motions of [main], in program order. *)
Definition demo_sequence : list MotionStep :=
  [ mkMotionStep "two_arm_group" (NamedConfiguration "two_arm_init_pose")
      arm_parameters default_sleep_time;
    gripper_step "l_gripper_group" (-40);
    gripper_step "l_gripper_group" 0;
    gripper_step "l_gripper_group" (-40);
    gripper_step "l_gripper_group" 0;
    gripper_step "r_gripper_group" 40;
    gripper_step "r_gripper_group" 0;
    gripper_step "r_gripper_group" 40;
    gripper_step "r_gripper_group" 0 ].

(** What [main] does before the first motion. *)
Definition main_prologue : M unit :=
  emit RclpyInit;;
  emit (MoveItPyCreated "gripper_control");;
  logger_info main_logger "MoveItPy instance created";;
  get_planning_component sciurus17 "two_arm_group";;
  get_planning_component sciurus17 "l_gripper_group";;
  get_planning_component sciurus17 "r_gripper_group";;
  mret tt.

(** The state the process starts in. *)
Definition initial_world : World := mkWorld [] ∅.

(** ** Observations on traces *)

(** The events [m] adds when it is run from [w]. *)
Definition emitted {A} (m : M A) (w : World) : list Event :=
  drop (length (events w)) (events (m w).2).

(** A computation extends the trace: it only appends events. *)
Definition extends {A} (m : M A) : Prop :=
  ∀ w, ∃ es, events (m w).2 = events w ++ es.

(** The planner calls: which component, with which argument. *)
Fixpoint plan_calls (es : list Event) : list (string * PlanArgs) :=
  match es with
  | [] => []
  | Plan g _ args _ :: es' => (g, args) :: plan_calls es'
  | _ :: es' => plan_calls es'
  end.

(** The goal each planner call was made for. *)
Fixpoint plan_goals (es : list Event) : list (string * option GoalState) :=
  match es with
  | [] => []
  | Plan g request _ _ :: es' => (g, pc_goal request) :: plan_goals es'
  | _ :: es' => plan_goals es'
  end.

(** A [RobotState] of [main]'s robot model with one gripper's joint set
    to an angle given in degrees. *)
Definition gripper_goal (group : string) (degrees : float) : GoalState :=
  GoalRobotState
    (mkRobotState (RobotModelOf "gripper_control")
       [(group, [math.radians degrees])]).

Fixpoint plan_results (es : list Event) : list MotionPlanResponse :=
  match es with
  | [] => []
  | Plan _ _ _ r :: es' => r :: plan_results es'
  | _ :: es' => plan_results es'
  end.

(** The executor calls: the trajectory handed over. *)
Fixpoint executions (es : list Event) : list RobotTrajectory :=
  match es with
  | [] => []
  | Execute _ t _ :: es' => t :: executions es'
  | _ :: es' => executions es'
  end.

Fixpoint sleeps (es : list Event) : list float :=
  match es with
  | [] => []
  | Sleep t :: es' => t :: sleeps es'
  | _ :: es' => sleeps es'
  end.

Fixpoint error_logs (es : list Event) : list string :=
  match es with
  | [] => []
  | Log _ Error msg :: es' => msg :: error_logs es'
  | _ :: es' => error_logs es'
  end.

(** The two outcomes of a step. *)
Inductive StepOutcome : Type := Executed | PlanningFailed.

Definition outcome_of (r : MotionPlanResponse) : StepOutcome :=
  if success r then Executed else PlanningFailed.

(** The per-step record the log stream holds: "Executing plan" at info
    severity, "Planning failed" at error severity. *)
Fixpoint log_report (es : list Event) : list StepOutcome :=
  match es with
  | [] => []
  | Log _ Info msg :: es' =>
    if String.eqb msg "Executing plan" then Executed :: log_report es'
    else log_report es'
  | Log _ Error msg :: es' =>
    if String.eqb msg "Planning failed" then PlanningFailed :: log_report es'
    else log_report es'
  | _ :: es' => log_report es'
  end.

(** A planner that fails until it has been asked once. *)
Definition fails_first
    : list Event → string → PlanningComponent → PlanArgs → MotionPlanResponse :=
  λ h _ _ _,
    mkMotionPlanResponse (bool_decide (plan_calls h ≠ []))
      (TrajectoryHandle (length h)).

(** Modelled from the spec: the SRDF of the robot, which defines the
    named configurations, is not among the sources; [main]'s comment says
    that it defines "two_arm_init_pose", and the spec that this
    configuration belongs to the arm group. *)
Definition srdf_group_of (configuration_name : string) : option string :=
  if String.eqb configuration_name "two_arm_init_pose"
  then Some "two_arm_group" else None.

(** The groups a goal speaks about: the group of a named configuration,
    the groups whose joints were set on a [RobotState]. *)
Definition implied_groups (goal : GoalState) : list string :=
  match goal with
  | GoalConfiguration name =>
    match srdf_group_of name with Some g => [g] | None => [] end
  | GoalRobotState rs => (rs_positions rs).*1
  end.

(** For each planner call: the component planned for, and the groups its
    goal speaks about. *)
Definition goal_groups (es : list Event) : list (string * option (list string)) :=
  map (λ p, (p.1, implied_groups <$> p.2)) (plan_goals es).

(** The planner answers every request of step [s] with a plan, whatever
    happened before and whenever the start state was read. *)
Definition succeeds_on
    (planner : list Event → string → PlanningComponent → PlanArgs
               → MotionPlanResponse)
    (robot : MoveItPy) (s : MotionStep) : Prop :=
  ∀ h now, success (planner h (target_group s)
                      (mkPlanningComponent (Some (CurrentStateAt now))
                         (Some (goal_state (get_robot_model robot)
                                  (goal_spec s))))
                      (SinglePlanParameters (tuning s))) = true.

(** Every planner call in [es], a trace that follows history [h], comes
    right after the reading of the current state for the same component
    and the "Planning trajectory" notice, and its request starts from
    that very reading. *)
Definition starts_from_current_state (logger : Logger)
    (h es : list Event) : Prop :=
  ∀ pre g req args r post,
    es = pre ++ Plan g req args r :: post →
    ∃ pre',
      pre = pre' ++ [CurrentStateRead g;
                     Log logger Info "Planning trajectory"]
      ∧ pc_start req = Some (CurrentStateAt (length h + length pre')).

(** Two planners to run the script with. *)
Definition always_ok
    : list Event → string → PlanningComponent → PlanArgs → MotionPlanResponse :=
  λ h _ _ _, mkMotionPlanResponse true (TrajectoryHandle (length h)).
Definition never_ok
    : list Event → string → PlanningComponent → PlanArgs → MotionPlanResponse :=
  λ h _ _ _, mkMotionPlanResponse false (TrajectoryHandle 0).

(** The argument [plan_and_execute] passes to [plan]. *)
Definition plan_args (single_plan_parameters : option PlanRequestParameters)
    (multi_plan_parameters : option MultiPipelinePlanRequestParameters)
    : PlanArgs :=
  match multi_plan_parameters, single_plan_parameters with
  | Some mp, _ => MultiPlanParameters mp
  | None, Some sp => SinglePlanParameters sp
  | None, None => NoParameters
  end.

(** What follows the planner's answer [r], up to the sleep. *)
Definition handling (robot : MoveItPy) (logger : Logger)
    (r : MotionPlanResponse) : list Event :=
  if success r
  then [Log logger Info "Executing plan"; Execute robot (trajectory r) []]
  else [Log logger Error "Planning failed"].

Section Traces.

Variable planner :
  list Event → string → PlanningComponent → PlanArgs → MotionPlanResponse.
Variable robot : MoveItPy.
Variable logger : Logger.

(** The answer the planner gives inside [plan_and_execute] run from [w]. *)
Definition plan_result_in (planning_component : string) (args : PlanArgs)
    (w : World) : MotionPlanResponse :=
  planner (events w ++ [Log logger Info "Planning trajectory"])
    planning_component (component w planning_component) args.

(** The request a step assembles when the trace has [now] events. *)
Definition step_request (now : nat) (s : MotionStep) : PlanningComponent :=
  mkPlanningComponent (Some (CurrentStateAt now))
    (Some (goal_state (get_robot_model robot) (goal_spec s))).

(** The answer the planner gives to step [s] after history [h]. *)
Definition step_result (h : list Event) (s : MotionStep) : MotionPlanResponse :=
  planner
    (h ++ [CurrentStateRead (target_group s);
           Log logger Info "Planning trajectory"])
    (target_group s) (step_request (length h) s)
    (SinglePlanParameters (tuning s)).

(** The planner call a step makes. *)
Definition step_call (s : MotionStep) : string * PlanArgs :=
  (target_group s, SinglePlanParameters (tuning s)).

Definition step_trace (h : list Event) (s : MotionStep) : list Event :=
  [CurrentStateRead (target_group s);
   Log logger Info "Planning trajectory";
   Plan (target_group s) (step_request (length h) s)
     (SinglePlanParameters (tuning s)) (step_result h s)]
  ++ handling robot logger (step_result h s) ++ [Sleep (delay s)].

End Traces.

(** ** Further observations on traces and on the store *)

(** The trajectories of the truthy answers, in order. *)
Definition planned_trajectories (rs : list MotionPlanResponse)
    : list RobotTrajectory :=
  omap (λ r, if success r then Some (trajectory r) else None) rs.

(** The events that start and end the process. *)
Fixpoint lifecycle (es : list Event) : list Event :=
  match es with
  | [] => []
  | RclpyInit :: es' => RclpyInit :: lifecycle es'
  | MoveItPyCreated n :: es' => MoveItPyCreated n :: lifecycle es'
  | RclpyShutdown :: es' => RclpyShutdown :: lifecycle es'
  | _ :: es' => lifecycle es'
  end.

(** [Q pre e] holds of every event [e] of the trace, [pre] being the part
    of the trace before it. *)
Definition each_event (Q : list Event → Event → Prop) (es : list Event)
    : Prop :=
  ∀ pre e post, es = pre ++ e :: post → Q pre e.

(** An executor call comes right after a truthy planner answer and the
    "Executing plan" notice, and runs the trajectory of that answer on
    [robot], with no controllers named. *)
Definition execution_justified (robot : MoveItPy) (logger : Logger)
    (pre : list Event) (e : Event) : Prop :=
  match e with
  | Execute rb t controllers =>
    ∃ pre' g req args r,
      pre = pre' ++ [Plan g req args r; Log logger Info "Executing plan"]
      ∧ success r = true ∧ t = trajectory r
      ∧ controllers = [] ∧ rb = robot
  | _ => True
  end.

(** An error entry of the log is "Planning failed" and comes right after
    a falsy planner answer. *)
Definition error_justified (pre : list Event) (e : Event) : Prop :=
  match e with
  | Log _ Error msg =>
    msg = "Planning failed"
    ∧ ∃ pre' g req args r,
        pre = pre' ++ [Plan g req args r] ∧ success r = false
  | _ => True
  end.


(** A store in which the left gripper's component holds a goal and a
    start state from earlier use. *)
Definition used_world : World :=
  mkWorld []
    {[ "l_gripper_group" :=
         mkPlanningComponent (Some (CurrentStateAt 0))
           (Some (GoalConfiguration "stale")) ]}.

(** ** Running the monad *)

Create HintDb extends.

Lemma bind_run {A B} (m : M A) (k : A → M B) w a w' r :
  m w = (a, w') → k a w' = r → (m ≫= k) w = r.
Proof. unfold mbind, M_bind. intros -> ->. reflexivity. Qed.

Lemma bind_unfold {A B} (m : M A) (k : A → M B) w :
  (m ≫= k) w = k (m w).1 (m w).2.
Proof. unfold mbind, M_bind. destruct (m w); reflexivity. Qed.

Lemma emitted_events {A} (m : M A) w :
  extends m → events (m w).2 = events w ++ emitted m w.
Proof.
  intros H. destruct (H w) as [es Hes]. unfold emitted.
  rewrite Hes, drop_app_length. reflexivity.
Qed.

Lemma emitted_intro {A} (m : M A) w es :
  events (m w).2 = events w ++ es → emitted m w = es.
Proof. unfold emitted. intros ->. apply drop_app_length. Qed.

Lemma extends_ret {A} (a : A) : extends (mret a : M A).
Proof. intros w. exists []. simpl. by rewrite app_nil_r. Qed.

Lemma extends_bind {A B} (m : M A) (k : A → M B) :
  extends m → (∀ a, extends (k a)) → extends (m ≫= k).
Proof.
  intros Hm Hk w. rewrite bind_unfold.
  destruct (Hm w) as [es1 H1]. destruct (Hk (m w).1 (m w).2) as [es2 H2].
  exists (es1 ++ es2). rewrite H2, H1, app_assoc. reflexivity.
Qed.

Lemma emitted_bind {A B} (m : M A) (k : A → M B) w :
  extends m → (∀ a, extends (k a)) →
  emitted (m ≫= k) w = emitted m w ++ emitted (k (m w).1) (m w).2.
Proof.
  intros Hm Hk. apply emitted_intro. rewrite bind_unfold.
  rewrite (emitted_events (k _)), (emitted_events m), app_assoc by auto.
  reflexivity.
Qed.

Lemma emitted_ret {A} (a : A) w : emitted (mret a : M A) w = [].
Proof. apply emitted_intro. simpl. by rewrite app_nil_r. Qed.

Lemma extends_emit e : extends (emit e).
Proof. intros w. by exists [e]. Qed.

Lemma extends_update_component ref f : extends (update_component ref f).
Proof. intros w. exists []. simpl. by rewrite app_nil_r. Qed.

Lemma extends_get_planning_component r g : extends (get_planning_component r g).
Proof. intros w. exists []. simpl. by rewrite app_nil_r. Qed.

#[local] Hint Resolve extends_ret extends_emit extends_update_component
  extends_get_planning_component : extends.

(** ** plan_and_execute and the steps, as trace transformers *)

Section Runs.

Variable planner :
  list Event → string → PlanningComponent → PlanArgs → MotionPlanResponse.
Variable robot : MoveItPy.
Variable logger : Logger.

Lemma plan_and_execute_run pc sp mp t w :
  plan_and_execute planner robot pc logger sp mp t w =
  (tt, mkWorld
         (events w ++
          [Log logger Info "Planning trajectory";
           Plan pc (component w pc) (plan_args sp mp)
             (plan_result_in planner logger pc (plan_args sp mp) w)]
          ++ handling robot logger
               (plan_result_in planner logger pc (plan_args sp mp) w)
          ++ [Sleep t])
         (components w)).
Proof.
  unfold plan_and_execute, plan_result_in, handling, mbind, M_bind,
    logger_info, logger_error, time_sleep, execute, emit, plan, component.
  destruct mp as [m|], sp as [p|]; simpl;
    match goal with |- context [success ?r] => destruct (success r) end;
    simpl; rewrite <- ?app_assoc; reflexivity.
Qed.

Lemma build_request_run model ref g w :
  build_request model ref g w =
  (tt, mkWorld (events w ++ [CurrentStateRead ref])
         (<[ref := mkPlanningComponent
                     (Some (CurrentStateAt (length (events w))))
                     (Some (goal_state model g))]> (components w))).
Proof.
  unfold build_request, set_start_state_to_current_state, set_goal_state,
    mbind, M_bind, clock, emit, update_component, component.
  simpl.
  rewrite lookup_insert_eq, insert_insert_eq. reflexivity.
Qed.

Lemma run_step_run s w :
  run_step planner robot logger s w =
  (tt, mkWorld (events w ++ step_trace planner robot logger (events w) s)
         (<[target_group s := step_request robot (length (events w)) s]>
            (components w))).
Proof.
  unfold run_step.
  eapply bind_run; [apply build_request_run|].
  rewrite plan_and_execute_run. unfold plan_result_in, component. simpl.
  rewrite lookup_insert_eq. simpl.
  unfold step_trace, step_result, step_request.
  rewrite <- !app_assoc. reflexivity.
Qed.

Lemma extends_plan_and_execute pc sp mp t :
  extends (plan_and_execute planner robot pc logger sp mp t).
Proof. intros w. rewrite plan_and_execute_run. by eexists. Qed.

Lemma extends_build_request model ref g : extends (build_request model ref g).
Proof. intros w. rewrite build_request_run. by eexists. Qed.

Lemma extends_run_step s : extends (run_step planner robot logger s).
Proof. intros w. rewrite run_step_run. by eexists. Qed.

Lemma extends_run_sequence steps :
  extends (run_sequence planner robot logger steps).
Proof.
  induction steps as [|s rest IH]; simpl.
  - auto with extends.
  - apply extends_bind; auto using extends_run_step.
Qed.

Lemma emitted_plan_and_execute pc sp mp t w :
  emitted (plan_and_execute planner robot pc logger sp mp t) w =
  [Log logger Info "Planning trajectory";
   Plan pc (component w pc) (plan_args sp mp)
     (plan_result_in planner logger pc (plan_args sp mp) w)]
  ++ handling robot logger
       (plan_result_in planner logger pc (plan_args sp mp) w)
  ++ [Sleep t].
Proof. apply emitted_intro. rewrite plan_and_execute_run. reflexivity. Qed.

Lemma emitted_run_step s w :
  emitted (run_step planner robot logger s) w =
  step_trace planner robot logger (events w) s.
Proof. apply emitted_intro. rewrite run_step_run. reflexivity. Qed.

Lemma emitted_run_sequence_cons s rest w :
  emitted (run_sequence planner robot logger (s :: rest)) w =
  step_trace planner robot logger (events w) s ++
  emitted (run_sequence planner robot logger rest)
    (run_step planner robot logger s w).2.
Proof.
  simpl. rewrite emitted_bind, emitted_run_step;
    auto using extends_run_step, extends_run_sequence.
Qed.

End Runs.

(** ** main is its prologue, the nine steps and the shutdown *)

Lemma main_run planner w :
  main planner w =
  (main_prologue;;
   run_sequence planner sciurus17 main_logger demo_sequence;;
   emit RclpyShutdown) w.
Proof.
  unfold main, main_prologue, demo_sequence, gripper_step.
  cbn [for_range run_sequence].
  unfold run_step, build_request.
  cbn [target_group goal_spec tuning delay].
  rewrite !bind_unfold.
  reflexivity.
Qed.

Lemma emitted_main planner w :
  emitted (main planner) w =
  [RclpyInit; MoveItPyCreated "gripper_control";
   Log main_logger Info "MoveItPy instance created"]
  ++ emitted (run_sequence planner sciurus17 main_logger demo_sequence)
       (main_prologue w).2
  ++ [RclpyShutdown].
Proof.
  unfold emitted at 1. rewrite main_run, !bind_unfold.
  unfold emit at 1. cbn [snd events].
  rewrite (emitted_events (run_sequence _ _ _ _)) by apply extends_run_sequence.
  unfold main_prologue. rewrite !bind_unfold. cbn.
  rewrite <- !app_assoc, drop_app_length. reflexivity.
Qed.

Lemma events_main_prologue w :
  events (main_prologue w).2 =
  events w ++ [RclpyInit; MoveItPyCreated "gripper_control";
               Log main_logger Info "MoveItPy instance created"].
Proof.
  unfold main_prologue. rewrite !bind_unfold. cbn.
  rewrite <- !app_assoc. reflexivity.
Qed.

(** ** The observations distribute over concatenation *)

Lemma plan_calls_app es1 es2 :
  plan_calls (es1 ++ es2) = plan_calls es1 ++ plan_calls es2.
Proof.
  induction es1 as [|e es1 IH]; [reflexivity|].
  destruct e; simpl; rewrite IH; reflexivity.
Qed.

Lemma plan_goals_app es1 es2 :
  plan_goals (es1 ++ es2) = plan_goals es1 ++ plan_goals es2.
Proof.
  induction es1 as [|e es1 IH]; [reflexivity|].
  destruct e; simpl; rewrite IH; reflexivity.
Qed.

Lemma plan_results_app es1 es2 :
  plan_results (es1 ++ es2) = plan_results es1 ++ plan_results es2.
Proof.
  induction es1 as [|e es1 IH]; [reflexivity|].
  destruct e; simpl; rewrite IH; reflexivity.
Qed.

Lemma executions_app es1 es2 :
  executions (es1 ++ es2) = executions es1 ++ executions es2.
Proof.
  induction es1 as [|e es1 IH]; [reflexivity|].
  destruct e; simpl; rewrite IH; reflexivity.
Qed.

Lemma sleeps_app es1 es2 : sleeps (es1 ++ es2) = sleeps es1 ++ sleeps es2.
Proof.
  induction es1 as [|e es1 IH]; [reflexivity|].
  destruct e; simpl; rewrite IH; reflexivity.
Qed.

Lemma log_report_app es1 es2 :
  log_report (es1 ++ es2) = log_report es1 ++ log_report es2.
Proof.
  induction es1 as [|e es1 IH]; [reflexivity|].
  destruct e as [| |l [|] msg| | | | |]; simpl; rewrite ?IH; try reflexivity.
  - destruct (String.eqb msg "Executing plan"); simpl; congruence.
  - destruct (String.eqb msg "Planning failed"); simpl; congruence.
Qed.

Lemma sleeps_handling robot logger r : sleeps (handling robot logger r) = [].
Proof. unfold handling. destruct (success r); reflexivity. Qed.

Lemma plan_calls_handling robot logger r :
  plan_calls (handling robot logger r) = [].
Proof. unfold handling. destruct (success r); reflexivity. Qed.

Lemma plan_goals_handling robot logger r :
  plan_goals (handling robot logger r) = [].
Proof. unfold handling. destruct (success r); reflexivity. Qed.

Lemma plan_results_handling robot logger r :
  plan_results (handling robot logger r) = [].
Proof. unfold handling. destruct (success r); reflexivity. Qed.

Lemma log_report_handling robot logger r :
  log_report (handling robot logger r) = [outcome_of r].
Proof. unfold handling, outcome_of. destruct (success r); reflexivity. Qed.

Lemma executions_handling robot logger r :
  executions (handling robot logger r) =
  if success r then [trajectory r] else [].
Proof. unfold handling. destruct (success r); reflexivity. Qed.

(** ** The observations of one step and of a sequence *)

Section Observed.

Variable planner :
  list Event → string → PlanningComponent → PlanArgs → MotionPlanResponse.
Variable robot : MoveItPy.
Variable logger : Logger.

Lemma plan_calls_step h s :
  plan_calls (step_trace planner robot logger h s) = [step_call s].
Proof.
  unfold step_trace. rewrite !plan_calls_app, plan_calls_handling.
  reflexivity.
Qed.

Lemma plan_results_step h s :
  plan_results (step_trace planner robot logger h s) =
  [step_result planner robot logger h s].
Proof.
  unfold step_trace. rewrite !plan_results_app, plan_results_handling.
  reflexivity.
Qed.

Lemma sleeps_step h s :
  sleeps (step_trace planner robot logger h s) = [delay s].
Proof.
  unfold step_trace. rewrite !sleeps_app, sleeps_handling. reflexivity.
Qed.

Lemma log_report_step h s :
  log_report (step_trace planner robot logger h s) =
  [outcome_of (step_result planner robot logger h s)].
Proof.
  unfold step_trace. rewrite !log_report_app, log_report_handling.
  reflexivity.
Qed.

Lemma executions_step h s :
  executions (step_trace planner robot logger h s) =
  if success (step_result planner robot logger h s)
  then [trajectory (step_result planner robot logger h s)] else [].
Proof.
  unfold step_trace. rewrite !executions_app, executions_handling.
  simpl. by rewrite app_nil_r.
Qed.

Lemma plan_calls_run_sequence steps w :
  plan_calls (emitted (run_sequence planner robot logger steps) w) =
  map step_call steps.
Proof.
  revert w. induction steps as [|s rest IH]; intros w.
  - simpl. by rewrite emitted_ret.
  - rewrite emitted_run_sequence_cons, plan_calls_app, plan_calls_step, IH.
    reflexivity.
Qed.

Lemma plan_goals_step h s :
  plan_goals (step_trace planner robot logger h s) =
  [(target_group s, Some (goal_state (get_robot_model robot) (goal_spec s)))].
Proof.
  unfold step_trace. rewrite !plan_goals_app, plan_goals_handling.
  reflexivity.
Qed.

Lemma plan_goals_run_sequence steps w :
  plan_goals (emitted (run_sequence planner robot logger steps) w) =
  map (λ s, (target_group s,
             Some (goal_state (get_robot_model robot) (goal_spec s)))) steps.
Proof.
  revert w. induction steps as [|s rest IH]; intros w.
  - simpl. by rewrite emitted_ret.
  - rewrite emitted_run_sequence_cons, plan_goals_app, plan_goals_step, IH.
    reflexivity.
Qed.

Lemma sleeps_run_sequence steps w :
  sleeps (emitted (run_sequence planner robot logger steps) w) =
  map delay steps.
Proof.
  revert w. induction steps as [|s rest IH]; intros w.
  - simpl. by rewrite emitted_ret.
  - rewrite emitted_run_sequence_cons, sleeps_app, sleeps_step, IH.
    reflexivity.
Qed.

Lemma log_report_run_sequence steps w :
  log_report (emitted (run_sequence planner robot logger steps) w) =
  map outcome_of
    (plan_results (emitted (run_sequence planner robot logger steps) w)).
Proof.
  revert w. induction steps as [|s rest IH]; intros w.
  - simpl. by rewrite emitted_ret.
  - rewrite emitted_run_sequence_cons, log_report_app, plan_results_app,
      log_report_step, plan_results_step, IH.
    reflexivity.
Qed.

Lemma length_plan_results_run_sequence steps w :
  length (plan_results (emitted (run_sequence planner robot logger steps) w)) =
  length steps.
Proof.
  revert w. induction steps as [|s rest IH]; intros w.
  - simpl. by rewrite emitted_ret.
  - rewrite emitted_run_sequence_cons, plan_results_app, plan_results_step.
    simpl. by rewrite IH.
Qed.

Lemma step_result_success h s :
  succeeds_on planner robot s →
  success (step_result planner robot logger h s) = true.
Proof. intros H. apply H. Qed.

Lemma log_report_all_executed steps w :
  Forall (succeeds_on planner robot) steps →
  log_report (emitted (run_sequence planner robot logger steps) w) =
  map (λ _, Executed) steps.
Proof.
  intros H. revert w. induction H as [|s rest Hs Hrest IH]; intros w.
  - simpl. by rewrite emitted_ret.
  - rewrite emitted_run_sequence_cons, log_report_app, log_report_step, IH.
    unfold outcome_of. by rewrite step_result_success.
Qed.

Lemma executions_all_executed steps w :
  Forall (succeeds_on planner robot) steps →
  length (executions (emitted (run_sequence planner robot logger steps) w)) =
  length steps.
Proof.
  intros H. revert w. induction H as [|s rest Hs Hrest IH]; intros w.
  - simpl. by rewrite emitted_ret.
  - rewrite emitted_run_sequence_cons, executions_app, executions_step,
      length_app, IH, step_result_success by done.
    reflexivity.
Qed.

End Observed.

(** ** Every request starts from a fresh reading of the current state *)

Lemma starts_from_current_state_app logger h es1 es2 :
  starts_from_current_state logger h es1 →
  starts_from_current_state logger (h ++ es1) es2 →
  starts_from_current_state logger h (es1 ++ es2).
Proof.
  intros H1 H2 pre g req args r post Heq.
  apply app_eq_inv in Heq as [[k [-> Hk]]|[k [-> ->]]].
  - destruct k as [|e k]; simpl in Hk.
    + subst es2. destruct (H2 [] g req args r post eq_refl) as [pre' [Hp _]].
      by destruct pre' as [|? [|? ?]].
    + injection Hk as <- ->. exact (H1 _ _ _ _ _ _ eq_refl).
  - destruct (H2 _ _ _ _ _ _ eq_refl) as [pre' [-> Hs]].
    exists (es1 ++ pre'). split; [by rewrite app_assoc|].
    rewrite Hs, !length_app. f_equal. f_equal. lia.
Qed.

Lemma starts_from_current_state_no_plan logger h es :
  plan_calls es = [] → starts_from_current_state logger h es.
Proof.
  intros Hnone pre g req args r post ->.
  rewrite plan_calls_app in Hnone. simpl in Hnone.
  by destruct (plan_calls pre).
Qed.

Lemma starts_from_current_state_step planner robot logger h s :
  starts_from_current_state logger h (step_trace planner robot logger h s).
Proof.
  intros pre g req args r post Heq.
  unfold step_trace, handling in Heq.
  destruct pre as [|e0 [|e1 [|e2 pre]]]; simplify_eq/=.
  - exists []. split; [reflexivity|]. simpl. do 2 f_equal. lia.
  - exfalso. destruct (success _);
      repeat (destruct pre as [|? pre]; simplify_eq/=).
Qed.

Lemma starts_from_current_state_run_sequence planner robot logger steps w :
  starts_from_current_state logger (events w)
    (emitted (run_sequence planner robot logger steps) w).
Proof.
  revert w. induction steps as [|s rest IH]; intros w.
  - simpl. rewrite emitted_ret. by apply starts_from_current_state_no_plan.
  - rewrite emitted_run_sequence_cons.
    apply starts_from_current_state_app.
    + apply starts_from_current_state_step.
    + specialize (IH (run_step planner robot logger s w).2).
      by rewrite run_step_run in IH |- *.
Qed.

(** * The claims *)

Section Claims.

Variable planner :
  list Event → string → PlanningComponent → PlanArgs → MotionPlanResponse.
Variable robot : MoveItPy.
Variable logger : Logger.

(** C10: [plan_and_execute] calls the planner exactly once, and chooses
    the argument by a fixed precedence: the multi-plan parameters when
    they are given, even if single-plan parameters are given too; the
    single-plan parameters when only they are given; no parameters when
    neither is given. *)
Theorem plan_and_execute_parameter_precedence
    (planning_component : string)
    (single_plan_parameters : option PlanRequestParameters)
    (mp : MultiPipelinePlanRequestParameters) (sp : PlanRequestParameters)
    (sleep_time : float) (w : World) :
  plan_calls
    (emitted (plan_and_execute planner robot planning_component logger
                single_plan_parameters (Some mp) sleep_time) w)
  = [(planning_component, MultiPlanParameters mp)]
  ∧ plan_calls
      (emitted (plan_and_execute planner robot planning_component logger
                  (Some sp) None sleep_time) w)
    = [(planning_component, SinglePlanParameters sp)]
  ∧ plan_calls
      (emitted (plan_and_execute planner robot planning_component logger
                  None None sleep_time) w)
    = [(planning_component, NoParameters)].
Proof.
  split_and!; rewrite emitted_plan_and_execute, !plan_calls_app,
    plan_calls_handling; reflexivity.
Qed.

(** C4: [plan_and_execute] calls [time.sleep] exactly once, with its
    [sleep_time], as the last thing it does, after the planning and the
    handling of its outcome, whether planning succeeded or failed; and in
    [main] all nine delays are zero. *)
Theorem sleep_once_after_every_step
    (planning_component : string)
    (single_plan_parameters : option PlanRequestParameters)
    (multi_plan_parameters : option MultiPipelinePlanRequestParameters)
    (sleep_time : float) (w : World) :
  let args := plan_args single_plan_parameters multi_plan_parameters in
  let r := plan_result_in planner logger planning_component args w in
  let before_sleep :=
    [Log logger Info "Planning trajectory";
     Plan planning_component (component w planning_component) args r]
    ++ (if success r
        then [Log logger Info "Executing plan";
              Execute robot (trajectory r) []]
        else [Log logger Error "Planning failed"]) in
  emitted (plan_and_execute planner robot planning_component logger
             single_plan_parameters multi_plan_parameters sleep_time) w
  = before_sleep ++ [Sleep sleep_time]
  ∧ sleeps before_sleep = []
  ∧ sleeps (emitted (plan_and_execute planner robot planning_component logger
                       single_plan_parameters multi_plan_parameters
                       sleep_time) w)
    = [sleep_time]
  ∧ sleeps (emitted (main planner) w) = replicate 9 0%float.
Proof.
  intros args r before_sleep. subst before_sleep.
  rewrite emitted_plan_and_execute. fold args. fold r.
  change (if success r then _ else _) with (handling robot logger r).
  split_and!.
  - reflexivity.
  - by rewrite sleeps_app, sleeps_handling.
  - by rewrite !sleeps_app, sleeps_handling.
  - rewrite emitted_main, !sleeps_app, sleeps_run_sequence. reflexivity.
Qed.

(** C3: whatever the planner answers, running a sequence of N steps
    calls the planner exactly N times, once per step and in the order of
    the sequence; [main] makes nine calls: the arm's initial pose, then
    the left gripper open, close, open, close, then the right gripper
    open, close, open, close. *)
Theorem planner_called_once_per_step_in_order
    (steps : list MotionStep) (w : World) :
  plan_calls (emitted (run_sequence planner robot logger steps) w)
  = map (λ s, (target_group s, SinglePlanParameters (tuning s))) steps
  ∧ length (plan_calls (emitted (run_sequence planner robot logger steps) w))
    = length steps
  ∧ plan_goals (emitted (run_sequence planner robot logger steps) w)
    = map (λ s, (target_group s,
                 Some (goal_state (get_robot_model robot) (goal_spec s))))
        steps
  ∧ length (plan_calls (emitted (main planner) w)) = 9
  ∧ plan_goals (emitted (main planner) w)
    = [("two_arm_group", Some (GoalConfiguration "two_arm_init_pose"));
       ("l_gripper_group", Some (gripper_goal "l_gripper_group" (-40)));
       ("l_gripper_group", Some (gripper_goal "l_gripper_group" 0));
       ("l_gripper_group", Some (gripper_goal "l_gripper_group" (-40)));
       ("l_gripper_group", Some (gripper_goal "l_gripper_group" 0));
       ("r_gripper_group", Some (gripper_goal "r_gripper_group" 40));
       ("r_gripper_group", Some (gripper_goal "r_gripper_group" 0));
       ("r_gripper_group", Some (gripper_goal "r_gripper_group" 40));
       ("r_gripper_group", Some (gripper_goal "r_gripper_group" 0))].
Proof.
  split_and!.
  - apply plan_calls_run_sequence.
  - by rewrite plan_calls_run_sequence, length_map.
  - apply plan_goals_run_sequence.
  - rewrite emitted_main, !plan_calls_app, plan_calls_run_sequence.
    reflexivity.
  - rewrite emitted_main, !plan_goals_app, plan_goals_run_sequence.
    reflexivity.
Qed.

(** C1: when the planner's answer is falsy, [plan_and_execute] logs
    "Planning failed" at error severity, does not call the executor,
    sleeps and returns normally; the steps that follow are run from the
    state it leaves, and the planner is called for each of them. *)
Theorem planning_failure_is_absorbed
    (planning_component : string)
    (single_plan_parameters : option PlanRequestParameters)
    (multi_plan_parameters : option MultiPipelinePlanRequestParameters)
    (sleep_time : float) (rest : list MotionStep) (w : World) :
  let step := plan_and_execute planner robot planning_component logger
                single_plan_parameters multi_plan_parameters sleep_time in
  let args := plan_args single_plan_parameters multi_plan_parameters in
  let r := plan_result_in planner logger planning_component args w in
  success r = false →
  step w =
    (tt, mkWorld
           (events w ++
            [Log logger Info "Planning trajectory";
             Plan planning_component (component w planning_component) args r;
             Log logger Error "Planning failed";
             Sleep sleep_time])
           (components w))
  ∧ executions (emitted step w) = []
  ∧ error_logs (emitted step w) = ["Planning failed"]
  ∧ emitted (step;; run_sequence planner robot logger rest) w
    = emitted step w
      ++ emitted (run_sequence planner robot logger rest) (step w).2
  ∧ plan_calls (emitted (run_sequence planner robot logger rest) (step w).2)
    = map (λ s, (target_group s, SinglePlanParameters (tuning s))) rest.
Proof.
  intros step args r Hr. subst step.
  rewrite emitted_plan_and_execute, plan_and_execute_run.
  fold args. fold r. unfold handling. rewrite Hr. split_and!.
  - reflexivity.
  - reflexivity.
  - reflexivity.
  - rewrite emitted_bind, emitted_plan_and_execute, plan_and_execute_run;
      auto using extends_plan_and_execute, extends_run_sequence.
    fold args. fold r. unfold handling. rewrite Hr. reflexivity.
  - apply plan_calls_run_sequence.
Qed.

(** C2: when the planner's answer is truthy, [plan_and_execute] calls the
    executor exactly once, with the trajectory of that answer, and only
    then sleeps and returns; the events of the steps that follow come
    after it. *)
Theorem success_executes_the_planned_trajectory_once
    (planning_component : string)
    (single_plan_parameters : option PlanRequestParameters)
    (multi_plan_parameters : option MultiPipelinePlanRequestParameters)
    (sleep_time : float) (rest : list MotionStep) (w : World) :
  let step := plan_and_execute planner robot planning_component logger
                single_plan_parameters multi_plan_parameters sleep_time in
  let args := plan_args single_plan_parameters multi_plan_parameters in
  let r := plan_result_in planner logger planning_component args w in
  success r = true →
  emitted step w =
    [Log logger Info "Planning trajectory";
     Plan planning_component (component w planning_component) args r;
     Log logger Info "Executing plan";
     Execute robot (trajectory r) [];
     Sleep sleep_time]
  ∧ executions (emitted step w) = [trajectory r]
  ∧ emitted (step;; run_sequence planner robot logger rest) w
    = [Log logger Info "Planning trajectory";
       Plan planning_component (component w planning_component) args r;
       Log logger Info "Executing plan";
       Execute robot (trajectory r) [];
       Sleep sleep_time]
      ++ emitted (run_sequence planner robot logger rest) (step w).2.
Proof.
  intros step args r Hr. subst step.
  rewrite emitted_bind, emitted_plan_and_execute;
    auto using extends_plan_and_execute, extends_run_sequence.
  fold args. fold r. unfold handling. rewrite Hr. split_and!; reflexivity.
Qed.

(** C5, as the code has it: running a sequence returns nothing; the
    outcome of each step is recorded in the log stream only, which holds
    for each step, in order, one entry, "Executing plan" when the step's
    plan result was truthy and "Planning failed" when it was not; an
    empty sequence adds no event at all. *)
Theorem outcome_recorded_in_log_only (steps : list MotionStep) (w : World) :
  (run_sequence planner robot logger steps w).1 = tt
  ∧ log_report (emitted (run_sequence planner robot logger steps) w)
    = map outcome_of
        (plan_results (emitted (run_sequence planner robot logger steps) w))
  ∧ length (log_report (emitted (run_sequence planner robot logger steps) w))
    = length steps
  ∧ emitted (run_sequence planner robot logger []) w = [].
Proof.
  split_and!.
  - by destruct (run_sequence _ _ _ _ _).1.
  - apply log_report_run_sequence.
  - by rewrite log_report_run_sequence, length_map,
      length_plan_results_run_sequence.
  - apply emitted_ret.
Qed.

(** C8: in every planner call of [main] the goal speaks about exactly the
    group of the planning component it was set on: the arm's named
    configuration is one of the arm group, and each gripper goal sets
    the joints of that gripper's group only; the same holds of the nine
    steps as they are assembled. *)
Theorem goal_group_is_target_group (w : World) :
  Forall (λ p, p.2 = Some [p.1]) (goal_groups (emitted (main planner) w))
  ∧ length (goal_groups (emitted (main planner) w)) = 9
  ∧ Forall (λ s, implied_groups
                   (goal_state (get_robot_model sciurus17) (goal_spec s))
                 = [target_group s]) demo_sequence.
Proof.
  unfold goal_groups.
  rewrite emitted_main, !plan_goals_app, plan_goals_run_sequence.
  split_and!.
  - repeat constructor.
  - reflexivity.
  - repeat constructor.
Qed.

(** C9, as the code has it: no report is produced by either run; if the
    planner answers every request of the steps with a plan, whatever came
    before, then running the sequence, and running it again from the
    state the first run leaves, both record "Executing plan" in the log
    for every step, the two records being the same, and both call the
    executor once per step. *)
Theorem successful_sequence_runs_twice_alike
    (steps : list MotionStep) (w : World) :
  let run := run_sequence planner robot logger steps in
  Forall (succeeds_on planner robot) steps →
  log_report (emitted run w) = map (λ _, Executed) steps
  ∧ log_report (emitted run (run w).2) = map (λ _, Executed) steps
  ∧ log_report (emitted run (run w).2) = log_report (emitted run w)
  ∧ length (executions (emitted run w)) = length steps
  ∧ length (executions (emitted run (run w).2)) = length steps.
Proof.
  intros run H. subst run.
  rewrite !(log_report_all_executed planner robot logger steps) by done.
  rewrite !(executions_all_executed planner robot logger steps) by done.
  done.
Qed.

(** C7: every planner call of [main] comes right after the planning
    component has read the robot's current state as its start state (only
    the "Planning trajectory" notice lies between), and the request's
    start state is that very reading. *)
Theorem every_plan_starts_from_the_current_state
    (w : World) (pre post : list Event) (g : string)
    (req : PlanningComponent) (args : PlanArgs) (r : MotionPlanResponse) :
  emitted (main planner) w = pre ++ Plan g req args r :: post →
  ∃ pre',
    pre = pre' ++ [CurrentStateRead g;
                   Log main_logger Info "Planning trajectory"]
    ∧ pc_start req = Some (CurrentStateAt (length (events w) + length pre')).
Proof.
  revert pre g req args r post.
  change (starts_from_current_state main_logger (events w)
            (emitted (main planner) w)).
  rewrite emitted_main.
  apply starts_from_current_state_app;
    [by apply starts_from_current_state_no_plan|].
  apply starts_from_current_state_app;
    [|by apply starts_from_current_state_no_plan].
  rewrite <- events_main_prologue.
  apply starts_from_current_state_run_sequence.
Qed.

End Claims.

(** * The claims at concrete inputs *)

Lemma planning_failure_is_absorbed_witness :
  success (plan_result_in never_ok main_logger "l_gripper_group"
             (plan_args (Some gripper_parameters) None) initial_world) = false
  ∧ executions
      (emitted (plan_and_execute never_ok sciurus17 "l_gripper_group"
                  main_logger (Some gripper_parameters) None 0%float)
         initial_world) = [].
Proof.
  split; [reflexivity|].
  apply (planning_failure_is_absorbed never_ok sciurus17 main_logger
           "l_gripper_group" (Some gripper_parameters) None 0%float
           [gripper_step "l_gripper_group" 0] initial_world).
  reflexivity.
Defined.

Lemma success_executes_the_planned_trajectory_once_witness :
  success (plan_result_in always_ok main_logger "l_gripper_group"
             (plan_args (Some gripper_parameters) None) initial_world) = true
  ∧ executions
      (emitted (plan_and_execute always_ok sciurus17 "l_gripper_group"
                  main_logger (Some gripper_parameters) None 0%float)
         initial_world) = [TrajectoryHandle 1].
Proof.
  split; [reflexivity|].
  apply (success_executes_the_planned_trajectory_once always_ok sciurus17
           main_logger "l_gripper_group" (Some gripper_parameters) None
           0%float [gripper_step "l_gripper_group" 0] initial_world).
  reflexivity.
Defined.

Lemma successful_sequence_runs_twice_alike_witness :
  log_report
    (emitted (run_sequence always_ok sciurus17 main_logger demo_sequence)
       (run_sequence always_ok sciurus17 main_logger demo_sequence
          initial_world).2)
  = map (λ _, Executed) demo_sequence.
Proof.
  apply (successful_sequence_runs_twice_alike always_ok sciurus17 main_logger
           demo_sequence initial_world).
  repeat constructor.
Defined.

Lemma every_plan_starts_from_the_current_state_witness :
  ∃ pre',
    [RclpyInit; MoveItPyCreated "gripper_control";
     Log main_logger Info "MoveItPy instance created";
     CurrentStateRead "two_arm_group";
     Log main_logger Info "Planning trajectory"]
    = pre' ++ [CurrentStateRead "two_arm_group";
               Log main_logger Info "Planning trajectory"]
    ∧ Some (CurrentStateAt 3) = Some (CurrentStateAt (0 + length pre')).
Proof.
  apply (every_plan_starts_from_the_current_state never_ok initial_world
           [RclpyInit; MoveItPyCreated "gripper_control";
            Log main_logger Info "MoveItPy instance created";
            CurrentStateRead "two_arm_group";
            Log main_logger Info "Planning trajectory"]
           (drop 6 (emitted (main never_ok) initial_world))
           "two_arm_group"
           (mkPlanningComponent (Some (CurrentStateAt 3))
              (Some (GoalConfiguration "two_arm_init_pose")))
           (SinglePlanParameters arm_parameters)
           (mkMotionPlanResponse false (TrajectoryHandle 0))).
  vm_compute. reflexivity.
Defined.

(** The second scenario of the spec: two left gripper steps, the planner
    fails on the first request and succeeds on the second. *)
Example failure_then_success :
  let run := run_sequence fails_first sciurus17 main_logger
               [gripper_step "l_gripper_group" (-40);
                gripper_step "l_gripper_group" 0] in
  log_report (emitted run initial_world) = [PlanningFailed; Executed]
  ∧ executions (emitted run initial_world) = [TrajectoryHandle 7]
  ∧ length (plan_calls (emitted run initial_world)) = 2.
Proof. vm_compute. done. Qed.

(** C5, as stated, fails: what running a sequence returns is the same
    whatever the steps and their outcomes were, so no report can be read
    off it. *)
Lemma no_report_is_returned :
  ¬ ∃ report : unit → list StepOutcome,
      ∀ planner steps,
        report (run_sequence planner sciurus17 main_logger steps
                  initial_world).1
        = map outcome_of
            (plan_results
               (emitted (run_sequence planner sciurus17 main_logger steps)
                  initial_world)).
Proof.
  intros [report H].
  pose proof (H always_ok []) as H0.
  pose proof (H always_ok [gripper_step "l_gripper_group" 0]) as H1.
  vm_compute in H0, H1. congruence.
Qed.

(** C9, as stated, fails: even with a planner that always finds a plan,
    the two runs of a sequence return the same value whatever the
    sequence is, so neither hands back a report that holds Executed for
    every step. *)
Lemma no_reports_from_two_runs :
  ¬ ∃ report : unit → list StepOutcome,
      ∀ planner steps,
        Forall (succeeds_on planner sciurus17) steps →
        let run := run_sequence planner sciurus17 main_logger steps in
        report (run initial_world).1 = map (λ _, Executed) steps
        ∧ report (run (run initial_world).2).1 = map (λ _, Executed) steps.
Proof.
  intros [report H].
  destruct (H always_ok [] ltac:(constructor)) as [H0 _].
  destruct (H always_ok [gripper_step "l_gripper_group" 0]
              ltac:(repeat constructor)) as [_ H1].
  vm_compute in H0, H1. congruence.
Qed.

(** * Further properties of plan_and_execute and main *)

(** ** More observations that distribute over concatenation *)

Lemma error_logs_app es1 es2 :
  error_logs (es1 ++ es2) = error_logs es1 ++ error_logs es2.
Proof.
  induction es1 as [|e es1 IH]; [reflexivity|].
  destruct e as [| |l [|] msg| | | | |]; simpl; rewrite ?IH; reflexivity.
Qed.

Lemma lifecycle_app es1 es2 :
  lifecycle (es1 ++ es2) = lifecycle es1 ++ lifecycle es2.
Proof.
  induction es1 as [|e es1 IH]; [reflexivity|].
  destruct e; simpl; rewrite IH; reflexivity.
Qed.

Section Sequences.

Variable planner :
  list Event → string → PlanningComponent → PlanArgs → MotionPlanResponse.
Variable robot : MoveItPy.
Variable logger : Logger.

Lemma step_trace_outcome h s :
  step_trace planner robot logger h s =
  [CurrentStateRead (target_group s);
   Log logger Info "Planning trajectory";
   Plan (target_group s) (step_request robot (length h) s)
     (SinglePlanParameters (tuning s)) (step_result planner robot logger h s)]
  ++ (if success (step_result planner robot logger h s)
      then [Log logger Info "Executing plan";
            Execute robot
              (trajectory (step_result planner robot logger h s)) []]
      else [Log logger Error "Planning failed"])
  ++ [Sleep (delay s)].
Proof. reflexivity. Qed.

Lemma events_run_step s w :
  events (run_step planner robot logger s w).2 =
  events w ++ step_trace planner robot logger (events w) s.
Proof. by rewrite run_step_run. Qed.

(** An induction principle for what a sequence emits: a property of
    traces that holds of the empty trace and is kept when the trace of
    one more step is put in front. *)
Lemma run_sequence_trace_ind (P : list MotionStep → list Event → Prop) :
  P [] [] →
  (∀ h s rest es,
     P rest es → P (s :: rest) (step_trace planner robot logger h s ++ es)) →
  ∀ steps w, P steps (emitted (run_sequence planner robot logger steps) w).
Proof.
  intros Hnil Hcons steps. induction steps as [|s rest IH]; intros w.
  - simpl. by rewrite emitted_ret.
  - rewrite emitted_run_sequence_cons. apply Hcons, IH.
Qed.

Lemma executions_run_sequence steps w :
  executions (emitted (run_sequence planner robot logger steps) w) =
  planned_trajectories
    (plan_results (emitted (run_sequence planner robot logger steps) w)).
Proof.
  revert steps w.
  apply (run_sequence_trace_ind
           (λ _ es, executions es = planned_trajectories (plan_results es)));
    [reflexivity|].
  intros h s rest es IH.
  rewrite executions_app, plan_results_app, executions_step,
    plan_results_step, IH.
  unfold planned_trajectories. simpl.
  by destruct (success _).
Qed.

Lemma error_logs_step h s :
  error_logs (step_trace planner robot logger h s) =
  if success (step_result planner robot logger h s)
  then [] else ["Planning failed"].
Proof. rewrite step_trace_outcome. by destruct (success _). Qed.

Lemma outcomes_run_sequence steps w :
  length (executions (emitted (run_sequence planner robot logger steps) w))
  + length (error_logs (emitted (run_sequence planner robot logger steps) w))
  = length steps.
Proof.
  revert steps w.
  apply (run_sequence_trace_ind
           (λ steps es,
              length (executions es) + length (error_logs es) = length steps));
    [reflexivity|].
  intros h s rest es IH.
  rewrite executions_app, error_logs_app, executions_step, error_logs_step,
    !length_app.
  destruct (success _); simpl; lia.
Qed.

Lemma lifecycle_run_sequence steps w :
  lifecycle (emitted (run_sequence planner robot logger steps) w) = [].
Proof.
  revert steps w.
  apply (run_sequence_trace_ind (λ _ es, lifecycle es = [])); [reflexivity|].
  intros h s rest es IH.
  rewrite lifecycle_app, IH, step_trace_outcome.
  by destruct (success _).
Qed.

End Sequences.

(** ** Properties of every event of a trace *)

Lemma each_event_app Q es1 es2 :
  (∀ x pre e, Q pre e → Q (x ++ pre) e) →
  each_event Q es1 → each_event Q es2 → each_event Q (es1 ++ es2).
Proof.
  intros Hweaken H1 H2 pre e post Heq.
  apply app_eq_inv in Heq as [[k [-> Hk]]|[k [-> ->]]].
  - destruct k as [|e' k]; simpl in Hk.
    + subst es2. rewrite <- (app_nil_r pre).
      apply Hweaken, (H2 [] e post eq_refl).
    + injection Hk as <- ->. exact (H1 _ _ _ eq_refl).
  - apply Hweaken, (H2 _ _ _ eq_refl).
Qed.

Lemma execution_justified_weaken robot logger x pre e :
  execution_justified robot logger pre e →
  execution_justified robot logger (x ++ pre) e.
Proof.
  destruct e; simpl; try done.
  intros (pre' & g & req & args & r & -> & H).
  exists (x ++ pre'), g, req, args, r. by rewrite app_assoc.
Qed.

Lemma error_justified_weaken x pre e :
  error_justified pre e → error_justified (x ++ pre) e.
Proof.
  destruct e as [| |l [|] msg| | | | |]; simpl; try done.
  intros [Hmsg (pre' & g & req & args & r & -> & H)]. split; [done|].
  exists (x ++ pre'), g, req, args, r. by rewrite app_assoc.
Qed.

Lemma execution_justified_step planner robot logger h s :
  each_event (execution_justified robot logger)
    (step_trace planner robot logger h s).
Proof.
  intros pre e post Heq. rewrite step_trace_outcome in Heq.
  destruct (success (step_result planner robot logger h s)) eqn:Hs;
    repeat (destruct pre as [|? pre]; simplify_eq/=); try exact I.
  by eexists [_; _], _, _, _, _.
Qed.

Lemma error_justified_step planner robot logger h s :
  each_event error_justified (step_trace planner robot logger h s).
Proof.
  intros pre e post Heq. rewrite step_trace_outcome in Heq.
  destruct (success (step_result planner robot logger h s)) eqn:Hs;
    repeat (destruct pre as [|? pre]; simplify_eq/=); try exact I.
  split; [done|]. by eexists [_; _], _, _, _, _.
Qed.

Lemma execution_justified_run_sequence planner robot logger steps w :
  each_event (execution_justified robot logger)
    (emitted (run_sequence planner robot logger steps) w).
Proof.
  revert steps w.
  apply (run_sequence_trace_ind planner robot logger
           (λ _ es, each_event (execution_justified robot logger) es)).
  - intros pre e post Heq. by destruct pre.
  - intros h s rest es IH.
    apply each_event_app;
      auto using execution_justified_weaken, execution_justified_step.
Qed.

Lemma error_justified_run_sequence planner robot logger steps w :
  each_event error_justified
    (emitted (run_sequence planner robot logger steps) w).
Proof.
  revert steps w.
  apply (run_sequence_trace_ind planner robot logger
           (λ _ es, each_event error_justified es)).
  - intros pre e post Heq. by destruct pre.
  - intros h s rest es IH.
    apply each_event_app;
      auto using error_justified_weaken, error_justified_step.
Qed.

Lemma execution_justified_main planner w :
  each_event (execution_justified sciurus17 main_logger)
    (emitted (main planner) w).
Proof.
  rewrite emitted_main.
  repeat apply each_event_app;
    auto using execution_justified_weaken, execution_justified_run_sequence.
  - intros pre e post Heq.
    by repeat (destruct pre as [|? pre]; simplify_eq/=).
  - intros pre e post Heq.
    by repeat (destruct pre as [|? pre]; simplify_eq/=).
Qed.

Lemma error_justified_main planner w :
  each_event error_justified (emitted (main planner) w).
Proof.
  rewrite emitted_main.
  repeat apply each_event_app;
    auto using error_justified_weaken, error_justified_run_sequence.
  - intros pre e post Heq.
    by repeat (destruct pre as [|? pre]; simplify_eq/=).
  - intros pre e post Heq.
    by repeat (destruct pre as [|? pre]; simplify_eq/=).
Qed.

(** ** The store *)



Lemma emitted_run_sequence_same_events planner robot logger steps w1 w2 :
  events w1 = events w2 →
  emitted (run_sequence planner robot logger steps) w1 =
  emitted (run_sequence planner robot logger steps) w2.
Proof.
  revert w1 w2. induction steps as [|s rest IH]; intros w1 w2 H.
  - simpl. by rewrite !emitted_ret.
  - rewrite !emitted_run_sequence_cons, H. f_equal.
    apply IH. by rewrite !events_run_step, H.
Qed.

(** ** The properties *)

Section Properties.

Variable planner :
  list Event → string → PlanningComponent → PlanArgs → MotionPlanResponse.
Variable robot : MoveItPy.
Variable logger : Logger.


(** X2: The executor is called for exactly the truthy answers of the
    planner, in their order, each time with the trajectory of the
    answer: in any sequence of steps and in [main]. *)
Theorem executions_are_the_successful_plans
    (steps : list MotionStep) (w : World) :
  executions (emitted (run_sequence planner robot logger steps) w)
  = planned_trajectories
      (plan_results (emitted (run_sequence planner robot logger steps) w))
  ∧ executions (emitted (main planner) w)
    = planned_trajectories (plan_results (emitted (main planner) w)).
Proof.
  split; [apply executions_run_sequence|].
  rewrite emitted_main, !executions_app, !plan_results_app,
    executions_run_sequence.
  simpl. by rewrite !app_nil_r.
Qed.

(** X3: Every step ends in exactly one of an executor call and an error
    entry in the log: their numbers add up to the number of steps, nine
    in [main]. *)
Theorem each_step_executes_or_logs_an_error
    (steps : list MotionStep) (w : World) :
  length (executions (emitted (run_sequence planner robot logger steps) w))
  + length (error_logs (emitted (run_sequence planner robot logger steps) w))
  = length steps
  ∧ length (executions (emitted (main planner) w))
    + length (error_logs (emitted (main planner) w)) = 9.
Proof.
  split; [apply outcomes_run_sequence|].
  rewrite emitted_main, !executions_app, !error_logs_app, !length_app.
  pose proof (outcomes_run_sequence planner sciurus17 main_logger
                demo_sequence (main_prologue w).2) as H.
  simpl in *. lia.
Qed.

(** X4: In [main] the executor is never called out of the blue: every
    executor call comes right after a planner answer that is truthy and
    the "Executing plan" notice, runs the trajectory of that answer, on
    the robot [main] created, with an empty list of controllers. *)
Theorem every_execution_follows_its_plan
    (w : World) (pre post : list Event) (rb : MoveItPy)
    (t : RobotTrajectory) (controllers : list string) :
  emitted (main planner) w = pre ++ Execute rb t controllers :: post →
  ∃ pre' g req args r,
    pre = pre' ++ [Plan g req args r; Log main_logger Info "Executing plan"]
    ∧ success r = true ∧ t = trajectory r
    ∧ controllers = [] ∧ rb = sciurus17.
Proof.
  intros Heq. exact (execution_justified_main planner w _ _ _ Heq).
Qed.

(** X5: In [main] every entry of the log at error severity is "Planning
    failed", and comes right after a planner answer that is falsy. *)
Theorem every_error_entry_follows_a_failed_plan
    (w : World) (pre post : list Event) (l : Logger) (msg : string) :
  emitted (main planner) w = pre ++ Log l Error msg :: post →
  msg = "Planning failed"
  ∧ ∃ pre' g req args r,
      pre = pre' ++ [Plan g req args r] ∧ success r = false.
Proof.
  intros Heq. exact (error_justified_main planner w _ _ _ Heq).
Qed.

(** X6: Whatever the planner answers, [main] starts with [rclpy.init] and
    ends with [rclpy.shutdown]; the node is created once, and neither
    call occurs anywhere in between. *)
Theorem main_initialises_first_and_shuts_down_last (w : World) :
  lifecycle (emitted (main planner) w)
  = [RclpyInit; MoveItPyCreated "gripper_control"; RclpyShutdown]
  ∧ head (emitted (main planner) w) = Some RclpyInit
  ∧ last (emitted (main planner) w) = Some RclpyShutdown.
Proof.
  rewrite emitted_main. split_and!.
  - by rewrite !lifecycle_app, lifecycle_run_sequence.
  - reflexivity.
  - by rewrite !app_assoc, last_snoc.
Qed.

(** X7: What a sequence of steps, and [main], add to the trace does not
    depend on what the planning components held before: every step sets
    start and goal anew, so nothing of an earlier use of a component
    reaches the planner. *)
Theorem steps_ignore_earlier_component_state
    (steps : list MotionStep) (w1 w2 : World) :
  events w1 = events w2 →
  emitted (run_sequence planner robot logger steps) w1
  = emitted (run_sequence planner robot logger steps) w2
  ∧ emitted (main planner) w1 = emitted (main planner) w2.
Proof.
  intros H. split; [by apply emitted_run_sequence_same_events|].
  rewrite !emitted_main. do 2 f_equal.
  apply emitted_run_sequence_same_events.
  by rewrite !events_main_prologue, H.
Qed.


(** X10: With a planner that never finds a plan the robot is never moved: no
    step calls the executor, each logs "Planning failed", and [main]
    still runs all nine steps and shuts down. *)
Theorem no_plan_no_motion (steps : list MotionStep) (w : World) :
  (∀ h g req args, success (planner h g req args) = false) →
  executions (emitted (run_sequence planner robot logger steps) w) = []
  ∧ error_logs (emitted (run_sequence planner robot logger steps) w)
    = replicate (length steps) "Planning failed"
  ∧ executions (emitted (main planner) w) = []
  ∧ error_logs (emitted (main planner) w) = replicate 9 "Planning failed"
  ∧ last (emitted (main planner) w) = Some RclpyShutdown.
Proof.
  intros Hfail.
  assert (∀ rb lg sts w',
            executions (emitted (run_sequence planner rb lg sts) w') = []
            ∧ error_logs (emitted (run_sequence planner rb lg sts) w')
              = replicate (length sts) "Planning failed") as Hseq.
  { intros rb lg.
    apply (run_sequence_trace_ind planner rb lg
             (λ sts es, executions es = []
                        ∧ error_logs es
                          = replicate (length sts) "Planning failed"));
      [done|].
    intros h s rest es [IH1 IH2].
    rewrite executions_app, error_logs_app, executions_step, error_logs_step,
      IH1, IH2.
    unfold step_result. by rewrite Hfail. }
  destruct (Hseq robot logger steps w) as [H1 H2].
  destruct (Hseq sciurus17 main_logger demo_sequence (main_prologue w).2)
    as [H3 H4].
  rewrite emitted_main. split_and!; try done.
  - by rewrite !executions_app, H3.
  - by rewrite !error_logs_app, H4.
  - by rewrite !app_assoc, last_snoc.
Qed.

End Properties.

(** ** The properties at concrete inputs *)

Lemma every_execution_follows_its_plan_witness :
  execution_justified sciurus17 main_logger
    (take 7 (emitted (main always_ok) initial_world))
    (Execute sciurus17 (TrajectoryHandle 5) []).
Proof.
  apply (every_execution_follows_its_plan always_ok initial_world
           (take 7 (emitted (main always_ok) initial_world))
           (drop 8 (emitted (main always_ok) initial_world))).
  vm_compute. reflexivity.
Defined.

Lemma every_error_entry_follows_a_failed_plan_witness :
  error_justified
    (take 6 (emitted (main never_ok) initial_world))
    (Log main_logger Error "Planning failed").
Proof.
  apply (every_error_entry_follows_a_failed_plan never_ok initial_world
           (take 6 (emitted (main never_ok) initial_world))
           (drop 7 (emitted (main never_ok) initial_world))
           main_logger "Planning failed").
  vm_compute. reflexivity.
Defined.

Lemma steps_ignore_earlier_component_state_witness :
  emitted (run_sequence fails_first sciurus17 main_logger
             [gripper_step "l_gripper_group" 0]) initial_world
  = emitted (run_sequence fails_first sciurus17 main_logger
               [gripper_step "l_gripper_group" 0]) used_world.
Proof.
  apply (steps_ignore_earlier_component_state fails_first sciurus17
           main_logger [gripper_step "l_gripper_group" 0]
           initial_world used_world).
  reflexivity.
Defined.

Lemma no_plan_no_motion_witness :
  executions (emitted (main never_ok) initial_world) = [].
Proof.
  apply (no_plan_no_motion never_ok sciurus17 main_logger demo_sequence
           initial_world).
  reflexivity.
Defined.
